(** * The POSIX launcher of the Mesos containerizer

    A shallow embedding of [src/slave/containerizer/mesos/launcher.cpp]:
    the container identity, the hierarchical path derivation, and the
    [recover] / [fork] / [destroy] / [status] operations of
    [PosixLauncher] over its pid registry. *)

From Stdlib Require Import ZArith List Ascii.
From stdpp Require Import gmap strings list fin_maps pretty.

(** ** Container identities *)

(** [ContainerID] is the protobuf message used as the registry key: a
    required label [value] and an optional [parent] identity. *)
#[local] Unset Elimination Schemes.
Inductive ContainerID : Type :=
| mkContainerID (value : string) (parent : option ContainerID).

#[local] Set Elimination Schemes.

Definition value (c : ContainerID) : string :=
  match c with mkContainerID v _ => v end.

Definition parent (c : ContainerID) : option ContainerID :=
  match c with mkContainerID _ p => p end.

Definition has_parent (c : ContainerID) : bool :=
  match parent c with Some _ => true | None => false end.

(** The labels of an identity, leaf first, then parent, grandparent, ... *)
Fixpoint labels_up (c : ContainerID) : list string :=
  match c with
  | mkContainerID v None => [v]
  | mkContainerID v (Some p) => v :: labels_up p
  end.

Fixpoint of_labels (l : list string) : option ContainerID :=
  match l with
  | [] => None
  | v :: l' => Some (mkContainerID v (of_labels l'))
  end.

(** The proper ancestors of an identity, nearest first. *)
Fixpoint ancestors (c : ContainerID) : list ContainerID :=
  match c with
  | mkContainerID _ None => []
  | mkContainerID _ (Some p) => p :: ancestors p
  end.

(** Induction along the parent chain. *)
Fixpoint ContainerID_chain_ind (P : ContainerID → Prop)
    (Hroot : ∀ v, P (mkContainerID v None))
    (Hnest : ∀ v p, P p → P (mkContainerID v (Some p)))
    (c : ContainerID) : P c :=
  match c with
  | mkContainerID v None => Hroot v
  | mkContainerID v (Some p) =>
      Hnest v p (ContainerID_chain_ind P Hroot Hnest p)
  end.

Lemma of_labels_up (c : ContainerID) : of_labels (labels_up c) = Some c.
Proof.
  induction c as [v | v p IH] using ContainerID_chain_ind; simpl.
  - reflexivity.
  - now rewrite IH.
Qed.

#[global] Instance ContainerID_eq_dec : EqDecision ContainerID.
Proof.
  intros c d. destruct (decide (labels_up c = labels_up d)) as [E | N].
  - left. apply (f_equal of_labels) in E. rewrite !of_labels_up in E. congruence.
  - right. intros ->. now apply N.
Defined.

#[global] Instance ContainerID_countable : Countable ContainerID :=
  inj_countable labels_up of_labels of_labels_up.

(** ** Hierarchical paths *)

Section BuildPath.

(** [path::join] of stout comes with two and with three arguments in
    [buildPathFromHierarchy]; stout is outside the launcher's source, so
    both are taken as they are. *)
Variable join2 : string → string → string.
Variable join3 : string → string → string → string.

(** protobuf's generated [Clear]: every field of the message goes back to
    its default, and a sub-message it owns is cleared in place. *)
Definition Clear (c : ContainerID) : ContainerID := mkContainerID "" None.

(** The assignment [containerId = containerId.parent()]. The generated
    [operator=] is [CopyFrom]: [Clear()] on the target, then
    [MergeFrom(source)]. Here the source is a reference to the target's own
    [parent] sub-message, which [Clear()] has emptied in place, so nothing
    is left to merge: the target ends up cleared, with the empty label and
    no parent. *)
Definition assign_own_parent (containerId : ContainerID) : ContainerID :=
  Clear containerId.

(** The [while (containerId.has_parent())] loop, on [fuel] rounds at
    most. *)
Fixpoint buildPath_loop (fuel : nat) (prefix : string)
    (containerId : ContainerID) (path : string) : string :=
  match fuel with
  | O => path
  | S fuel' =>
      if has_parent containerId then
        let containerId := assign_own_parent containerId in
        buildPath_loop fuel' prefix containerId
          (join3 prefix (value containerId) path)
      else path
  end.

(** [Launcher::buildPathFromHierarchy]; the loop gets one round per
    ancestor and one more. *)
Definition buildPathFromHierarchy (_containerId : ContainerID)
    (prefix : string) : string :=
  let containerId := _containerId in
  let path := join2 prefix (value containerId) in
  buildPath_loop (S (length (ancestors _containerId))) prefix containerId path.

(** The labels of an identity from the root-most ancestor down to the
    identity itself. *)
Definition labels_root_to_leaf (c : ContainerID) : list string :=
  rev (labels_up c).

(** One (prefix, label) segment per level of the hierarchy, root first. *)
Definition segments (prefix : string) (c : ContainerID)
  : list (string * string) :=
  map (pair prefix) (labels_root_to_leaf c).

(** Joining segments outermost first: every level but the innermost is a
    three-argument join over the rest of the path. *)
Fixpoint join_segments (segs : list (string * string)) : string :=
  match segs with
  | [] => ""
  | [(p, l)] => join2 p l
  | (p, l) :: rest => join3 p l (join_segments rest)
  end.

End BuildPath.

(** ** Values of the supporting libraries *)

(** [pid_t]: a process id, which after [SETSID] is also the session id and
    the process group id. *)
Abbreviation pid_t := Z (only parsing).

(** stout's [Try<T>]: a value or an error message. *)
Inductive Try (T : Type) : Type :=
| Ok (t : T)
| Error (message : string).
Arguments Ok {T} t.
Arguments Error {T} message.

(** stout's [Nothing]. *)
Inductive Nothing : Type := mkNothing.

(** The states a libprocess future can be observed in. *)
Inductive FutureState (T : Type) : Type :=
| PENDING
| READY (t : T)
| FAILED (message : string)
| DISCARDED.
Arguments PENDING {T}.
Arguments READY {T} t.
Arguments FAILED {T} message.
Arguments DISCARDED {T}.

Definition isReady {T} (future : FutureState T) : bool :=
  match future with READY _ => true | _ => false end.

Definition isFailed {T} (future : FutureState T) : bool :=
  match future with FAILED _ => true | _ => false end.

Definition failure {T} (future : FutureState T) : string :=
  match future with FAILED message => message | _ => "" end.

(** Modelled from the spec: libprocess ([process::Future], [process::reap])
    is not part of the launcher's source. Section 6 gives the reaper as
    WaitForExit(pid), a future of an optional exit status that resolves once
    the pid has been reaped or fails when the wait itself fails. The state
    of the reaper is what each pid's wait currently shows; a future is
    observed against it. *)
Definition Reaper : Type := pid_t → FutureState (option Z).

Definition Future (T : Type) : Type := Reaper → FutureState T.

(** A future built from a value, and one built from [Failure(message)]. *)
Definition ready {T} (t : T) : Future T := λ _, READY t.

Definition Failure {T} (message : string) : Future T := λ _, FAILED message.

Definition reap (pid : pid_t) : Future (option Z) := λ reaper, reaper pid.

(** [Future::then] of libprocess, which is not part of the launcher's
    source: the continuation is called with the value of a ready future and
    with nothing else; a failed future passes its failure on, a discarded
    one its discard, and the result is pending while the future is. *)
Definition then_ {T X} (future : Future T) (f : T → Future X) : Future X :=
  λ reaper,
    match future reaper with
    | PENDING => PENDING
    | READY t => f t reaper
    | FAILED message => FAILED message
    | DISCARDED => DISCARDED
    end.

Module ContainerState.
(** The fields of the protobuf message that [recover] reads. *)
Record t : Type := mk { container_id : ContainerID; pid : pid_t }.
End ContainerState.

Module Subprocess.
(** The field of [process::Subprocess] that [fork] reads. *)
Record t : Type := mk { pid : pid_t }.
End Subprocess.

(** The snapshot [status] fills in: only [executor_pid] is set. *)
Record ContainerStatus : Type := { executor_pid : option pid_t }.

Inductive Setsid : Type := SETSID | NO_SETSID.

Definition SIGKILL : Z := 9.

(** ** The pid registry *)

(** Modelled from the spec: stout's [hashmap] is not part of the launcher's
    source. Section 3 has the registry as a mutable association from
    identity to handle with at most one entry per identity: [put] sets the
    entry of its key, [erase] removes it, [contains] asks for a key and
    [containsValue] for a value. *)
Definition contains (pids : gmap ContainerID pid_t) (key : ContainerID) : bool :=
  match pids !! key with Some _ => true | None => false end.

Definition containsValue (pids : gmap ContainerID pid_t) (v : pid_t) : bool :=
  existsb (λ kv, Z.eqb (snd kv) v) (map_to_list pids).

(** [stringify] of a pid: the number in decimal. *)
Definition stringify_pid (pid : pid_t) : string := pretty pid.

(** Two of the associations name different identities and the same
    handle. *)
Definition duplicate_handle (states : list ContainerState.t) : Prop :=
  ∃ s1 s2,
    In s1 states ∧ In s2 states
    ∧ ContainerState.container_id s1 ≠ ContainerState.container_id s2
    ∧ ContainerState.pid s1 = ContainerState.pid s2.

(** No handle is registered for two identities. *)
Definition handles_unique (pids : gmap ContainerID pid_t) : Prop :=
  ∀ k1 k2 v, pids !! k1 = Some v → pids !! k2 = Some v → k1 = k2.

(** ** The launcher and its collaborators *)

Section PosixLauncher.

(** Values the launcher only hands on to its collaborators. *)
Context {IO FlagsBase Hook ProcessTree : Type}.

(** What [subprocess] is called with. *)
Record SubprocessCall : Type := {
  sp_path : string;
  sp_argv : list string;
  sp_in : IO;
  sp_out : IO;
  sp_err : IO;
  sp_setsid : Setsid;
  sp_flags : option FlagsBase;
  sp_environment : option (gmap string string);
  sp_clone : option unit;
  sp_parentHooks : list Hook
}.

(** The calls made to the collaborators, oldest first. *)
Inductive Call : Type :=
| CallSubprocess (request : SubprocessCall)
| CallKillTree (pid : pid_t) (signal : Z) (groups sessions : bool)
| CallReap (pid : pid_t).

(** The launcher: its registry [pids], and the calls it has made. *)
Record Launcher : Type := {
  pids : gmap ContainerID pid_t;
  calls : list Call
}.

Definition put (containerId : ContainerID) (pid : pid_t) (l : Launcher)
  : Launcher :=
  {| pids := <[containerId := pid]> (pids l); calls := calls l |}.

Definition erase (containerId : ContainerID) (l : Launcher) : Launcher :=
  {| pids := delete containerId (pids l); calls := calls l |}.

Definition called (c : Call) (l : Launcher) : Launcher :=
  {| pids := pids l; calls := calls l ++ [c] |}.

(** The test [namespaces.isSome() && namespaces.get() != 0]. *)
Definition requests_namespaces (namespaces : option Z) : bool :=
  match namespaces with
  | Some n => negb (Z.eqb n 0)
  | None => false
  end.

(** [stringify] of a [ContainerID] comes from [mesos/type_utils.hpp]. *)
Variable stringify_ContainerID : ContainerID → string.

(** [systemd::enabled()] under [__linux__], false elsewhere, and the hook
    [systemd::mesos::extendLifetime]. *)
Variable systemd_enabled : bool.
Variable extendLifetime : Hook.

(** The collaborators answer a call given the calls made before it. *)
Variable subprocess : list Call → SubprocessCall → Try Subprocess.t.
Variable killtree :
  list Call → pid_t → Z → bool → bool → Try (list ProcessTree).

(** [PosixLauncher::recover]: the [foreach] over [states]. *)
Fixpoint recover (states : list ContainerState.t) (l : Launcher)
  : Future (gset ContainerID) * Launcher :=
  match states with
  | [] => (ready ∅, l)
  | state :: states' =>
      let containerId := ContainerState.container_id state in
      let pid := ContainerState.pid state in
      if containsValue (pids l) pid then
        (Failure ("Detected duplicate pid " +:+ stringify_pid pid +:+
                  " for container " +:+ stringify_ContainerID containerId),
         l)
      else
        recover states' (put containerId pid l)
  end.

(** The message of the failure in [recover]. *)
Definition duplicate_pid_message (state : ContainerState.t) : string :=
  "Detected duplicate pid " +:+ stringify_pid (ContainerState.pid state) +:+
  " for container " +:+
  stringify_ContainerID (ContainerState.container_id state).

(** The [pids.put] of one association, and of a list of them in order. *)
Definition register (state : ContainerState.t) (l : Launcher) : Launcher :=
  put (ContainerState.container_id state) (ContainerState.pid state) l.

Definition registered (states : list ContainerState.t) (l : Launcher)
  : Launcher :=
  fold_left (λ l state, register state l) states l.

(** [PosixLauncher::fork]. The [LOG(INFO)] line of a successful fork is
    left out. *)
Definition fork (containerId : ContainerID) (path : string)
    (argv : list string) (in_ out err : IO) (flags : option FlagsBase)
    (environment : option (gmap string string)) (namespaces : option Z)
    (parentHooks : list Hook) (l : Launcher) : Try pid_t * Launcher :=
  if requests_namespaces namespaces then
    (Error "Posix launcher does not support namespaces", l)
  else if contains (pids l) containerId then
    (Error ("Process has already been forked for container " +:+
            stringify_ContainerID containerId),
     l)
  else
    let parentHooks :=
      if systemd_enabled then parentHooks ++ [extendLifetime]
      else parentHooks in
    let request :=
      {| sp_path := path; sp_argv := argv;
         sp_in := in_; sp_out := out; sp_err := err;
         sp_setsid := SETSID; sp_flags := flags;
         sp_environment := environment; sp_clone := None;
         sp_parentHooks := parentHooks |} in
    let child := subprocess (calls l) request in
    let l := called (CallSubprocess request) l in
    match child with
    | Error message =>
        (Error ("Failed to fork a child process: " +:+ message), l)
    | Ok child =>
        (Ok (Subprocess.pid child), put containerId (Subprocess.pid child) l)
    end.

(** [_destroy], the continuation of the wait in [destroy]. *)
Definition _destroy (future : FutureState (option Z)) : Future Nothing :=
  if isReady future then
    ready mkNothing
  else
    Failure ("Failed to kill all processes: " +:+
             (if isFailed future then failure future else "unknown error")).

(** [lambda::bind(&_destroy, lambda::_1)]: [then] hands the exit status
    over, and [_destroy], declared on a future, gets it as a ready one. *)
Definition bound_destroy (exit_status : option Z) : Future Nothing :=
  _destroy (READY exit_status).

(** [PosixLauncher::destroy]: the [contains] test and the [get] that
    follows it are one lookup here. The result [trees] of the kill is not
    read. *)
Definition destroy (containerId : ContainerID) (l : Launcher)
  : Future Nothing * Launcher :=
  match pids l !! containerId with
  | None => (Failure ("Unknown container " +:+ value containerId), l)
  | Some pid =>
      let trees := killtree (calls l) pid SIGKILL true true in
      let l := called (CallKillTree pid SIGKILL true true) l in
      let l := erase containerId l in
      let l := called (CallReap pid) l in
      (then_ (reap pid) bound_destroy, l)
  end.

(** [PosixLauncher::status]. *)
Definition status (containerId : ContainerID) (l : Launcher)
  : Future ContainerStatus * Launcher :=
  match pids l !! containerId with
  | None => (Failure "Container does not exist!", l)
  | Some pid => (ready {| executor_pid := Some pid |}, l)
  end.

Definition already_forked_message (containerId : ContainerID) : string :=
  "Process has already been forked for container " +:+
  stringify_ContainerID containerId.

Definition unsupported_message : string :=
  "Posix launcher does not support namespaces".

(** The call [fork] makes to [subprocess]. *)
Definition fork_request (path : string) (argv : list string)
    (in_ out err : IO) (flags : option FlagsBase)
    (environment : option (gmap string string)) (parentHooks : list Hook)
  : SubprocessCall :=
  {| sp_path := path; sp_argv := argv;
     sp_in := in_; sp_out := out; sp_err := err;
     sp_setsid := SETSID; sp_flags := flags;
     sp_environment := environment; sp_clone := None;
     sp_parentHooks :=
       if systemd_enabled then parentHooks ++ [extendLifetime]
       else parentHooks |}.

(** * Properties of the launcher *)

(** ** The registry *)

Lemma containsValue_true (m : gmap ContainerID Z) (v : Z) :
  containsValue m v = true ↔ ∃ k, m !! k = Some v.
Proof.
  unfold containsValue. rewrite existsb_exists. split.
  - intros [[k w] [Hin Heq]]. simpl in Heq. apply Z.eqb_eq in Heq. subst w.
    exists k. apply elem_of_map_to_list. now apply list_elem_of_In.
  - intros [k Hk]. exists (k, v). split.
    + apply list_elem_of_In. now apply elem_of_map_to_list.
    + simpl. apply Z.eqb_refl.
Qed.

Lemma containsValue_false (m : gmap ContainerID Z) (v : Z) :
  containsValue m v = false ↔ ¬ ∃ k, m !! k = Some v.
Proof.
  rewrite <- containsValue_true. destruct (containsValue m v); split; congruence.
Qed.

Lemma Failure_ne_ready {T} (message : string) (t : T) :
  Failure message ≠ ready t.
Proof.
  intros E. apply (f_equal (λ f : Future T, f (λ _, PENDING))) in E.
  discriminate E.
Qed.

Lemma first_repeat_split {A B} `{EqDecision B} (f : A → B) (l : list A) :
  ¬ NoDup (map f l) →
  ∃ before x after,
    l = before ++ x :: after ∧ NoDup (map f before) ∧ In (f x) (map f before).
Proof.
  induction l as [| x l IH] using rev_ind; intros Hdup.
  - exfalso. apply Hdup. constructor.
  - destruct (NoDup_dec (map f l)) as [Hnd | Hnd].
    + exists l, x, []. repeat split; try assumption.
      destruct (decide (f x ∈ map f l)) as [Hin | Hout].
      * now apply list_elem_of_In.
      * exfalso. apply Hdup. rewrite map_app. simpl.
        apply NoDup_app. repeat split; try assumption.
        -- intros y Hy Hy'. apply list_elem_of_singleton in Hy'. now subst y.
        -- apply NoDup_singleton.
    + destruct (IH Hnd) as (before & y & after & -> & Hb & Hy).
      exists before, y, (after ++ [x]). repeat split; try assumption.
      now rewrite <- app_assoc.
Qed.

Lemma NoDup_map_inj_on {A B} (f : A → B) (l : list A) (a b : A) :
  NoDup (map f l) → In a l → In b l → f a = f b → a = b.
Proof.
  induction l as [| x l IH]; simpl; intros Hnd Ha Hb Hab; [contradiction |].
  apply NoDup_cons in Hnd as [Hx Hnd].
  destruct Ha as [-> | Ha], Hb as [-> | Hb].
  - reflexivity.
  - exfalso. apply Hx. rewrite Hab. apply list_elem_of_In. now apply in_map.
  - exfalso. apply Hx. rewrite <- Hab. apply list_elem_of_In. now apply in_map.
  - now apply IH.
Qed.

(** ** Recovery *)

Lemma recover_duplicate (state : ContainerState.t) states (l : Launcher) :
  containsValue (pids l) (ContainerState.pid state) = true →
  recover (state :: states) l = (Failure (duplicate_pid_message state), l).
Proof. intros H. simpl. now rewrite H. Qed.

Lemma recover_insert (state : ContainerState.t) states (l : Launcher) :
  containsValue (pids l) (ContainerState.pid state) = false →
  recover (state :: states) l = recover states (register state l).
Proof. intros H. simpl. now rewrite H. Qed.

Lemma recover_app (before after : list ContainerState.t) (l l1 : Launcher) :
  recover before l = (ready ∅, l1) →
  recover (before ++ after) l = recover after l1.
Proof.
  revert l. induction before as [| state before IH]; intros l Hok.
  - simpl in Hok. injection Hok as ->. reflexivity.
  - simpl in Hok |- *.
    destruct (containsValue (pids l) (ContainerState.pid state)).
    + injection Hok as Hf _. exfalso. exact (Failure_ne_ready _ _ Hf).
    + now apply IH.
Qed.

(** Registering [states] leaves the other identities as they were. *)
Lemma registered_other (states : list ContainerState.t) (l : Launcher) k :
  ¬ In k (map ContainerState.container_id states) →
  pids (registered states l) !! k = pids l !! k.
Proof.
  revert l. induction states as [| s states IH]; intros l; simpl; intros H.
  - reflexivity.
  - rewrite IH by tauto. simpl. apply lookup_insert_ne. tauto.
Qed.

(** With no identity repeated, each of [states] is registered with its own
    handle. *)
Lemma registered_lookup (states : list ContainerState.t) (l : Launcher) s :
  NoDup (map ContainerState.container_id states) →
  In s states →
  pids (registered states l) !! ContainerState.container_id s
  = Some (ContainerState.pid s).
Proof.
  revert l. induction states as [| s0 states IH]; intros l Hnd Hin; simpl in *.
  - contradiction.
  - apply NoDup_cons in Hnd as [Hs0 Hnd]. destruct Hin as [-> | Hin].
    + rewrite registered_other.
      * simpl. apply lookup_insert_eq.
      * intros Hc. apply Hs0. now apply list_elem_of_In.
    + now apply IH.
Qed.

(** Associations with pairwise distinct handles, none of them a value of
    the registry, are all inserted. *)
Lemma recover_distinct (states rest : list ContainerState.t) (l : Launcher) :
  NoDup (map ContainerState.pid states) →
  (∀ s, In s states → ¬ ∃ k, pids l !! k = Some (ContainerState.pid s)) →
  recover (states ++ rest) l = recover rest (registered states l).
Proof.
  revert l. induction states as [| s states IH]; intros l Hnd Hfree.
  - reflexivity.
  - simpl in Hnd. apply NoDup_cons in Hnd as [Hs Hnd].
    change ((s :: states) ++ rest) with (s :: (states ++ rest)).
    rewrite recover_insert.
    + change (registered (s :: states) l) with (registered states (register s l)).
      apply IH; [assumption |].
      intros s' Hin [k Hk]. simpl in Hk.
      destruct (decide (ContainerState.container_id s = k)) as [<- | Hne].
      * rewrite lookup_insert_eq in Hk. injection Hk as Hk.
        apply Hs. rewrite Hk. apply list_elem_of_In. now apply in_map.
      * rewrite lookup_insert_ne in Hk by assumption.
        apply (Hfree s'); [now right | eauto].
    + apply containsValue_false. apply Hfree. now left.
Qed.

(** C1, as the code has it: on a registry with no entry, a list of
    associations with pairwise distinct identities, two of which carry the
    same handle, makes [recover] fail with the duplicate-pid failure that
    names the handle and the identity being processed, which is the first
    association whose handle repeats an earlier one; the registry is not
    rolled back: the associations processed before the duplicate stay
    registered, the duplicate and the later ones are not. *)
Theorem recover_duplicate_keeps_earlier (states : list ContainerState.t)
    (l : Launcher) :
  pids l = ∅ →
  NoDup (map ContainerState.container_id states) →
  duplicate_handle states →
  ∃ before state after,
    states = before ++ state :: after
    ∧ before ≠ []
    ∧ NoDup (map ContainerState.pid before)
    ∧ In (ContainerState.pid state) (map ContainerState.pid before)
    ∧ recover states l
      = (Failure (duplicate_pid_message state), registered before l)
    ∧ (∀ s, In s before →
         pids (registered before l) !! ContainerState.container_id s
         = Some (ContainerState.pid s))
    ∧ (∀ s, In s (state :: after) →
         pids (registered before l) !! ContainerState.container_id s = None).
Proof.
  intros Hempty Hids (s1 & s2 & Hin1 & Hin2 & Hne & Hpid).
  assert (Hdup : ¬ NoDup (map ContainerState.pid states)).
  { intros Hnd. apply Hne. f_equal.
    exact (NoDup_map_inj_on _ _ _ _ Hnd Hin1 Hin2 Hpid). }
  destruct (first_repeat_split ContainerState.pid states Hdup)
    as (before & state & after & -> & Hb & Hstate).
  rewrite map_app in Hids. apply NoDup_app in Hids as (Hidb & Hsep & _).
  exists before, state, after. repeat split; try assumption.
  - intros ->. simpl in Hstate. contradiction.
  - rewrite recover_distinct.
    + apply recover_duplicate. apply containsValue_true.
      apply in_map_iff in Hstate as (s & Hs & Hin).
      exists (ContainerState.container_id s). rewrite <- Hs.
      now apply registered_lookup.
    + assumption.
    + intros s _ [k Hk]. rewrite Hempty in Hk. now rewrite lookup_empty in Hk.
  - intros s Hin. now apply registered_lookup.
  - intros s Hin. rewrite registered_other.
    + rewrite Hempty. apply lookup_empty.
    + intros Hc. apply (Hsep (ContainerState.container_id s)).
      * now apply list_elem_of_In.
      * apply list_elem_of_In. now apply (in_map ContainerState.container_id).
Qed.

(** C9, as the code has it: once the associations before it have been
    inserted, an association makes [recover] fail with the duplicate-pid
    failure exactly when its handle is at that moment a value of the
    registry, whichever identity holds it, the association's own identity
    included; otherwise it is inserted and the pass goes on. *)
Theorem recover_fails_iff_handle_registered
    (before after : list ContainerState.t) (state : ContainerState.t)
    (l l1 : Launcher) :
  recover before l = (ready ∅, l1) →
  ((∃ k, pids l1 !! k = Some (ContainerState.pid state)) →
     recover (before ++ state :: after) l = (Failure (duplicate_pid_message state), l1))
  ∧ ((¬ ∃ k, pids l1 !! k = Some (ContainerState.pid state)) →
     recover (before ++ state :: after) l
     = recover after (register state l1))
  ∧ (fst (recover (before ++ [state]) l) = Failure (duplicate_pid_message state)
     ↔ ∃ k, pids l1 !! k = Some (ContainerState.pid state))
  ∧ (pids l1 !! ContainerState.container_id state
       = Some (ContainerState.pid state) →
     recover (before ++ state :: after) l = (Failure (duplicate_pid_message state), l1)).
Proof.
  intros Hbefore.
  assert (Hdup : (∃ k, pids l1 !! k = Some (ContainerState.pid state)) →
                 ∀ rest, recover (before ++ state :: rest) l
                         = (Failure (duplicate_pid_message state), l1)).
  { intros Hk rest. rewrite (recover_app _ _ _ _ Hbefore).
    apply recover_duplicate. now apply containsValue_true. }
  assert (Hins : (¬ ∃ k, pids l1 !! k = Some (ContainerState.pid state)) →
                 ∀ rest, recover (before ++ state :: rest) l
                         = recover rest (register state l1)).
  { intros Hk rest. rewrite (recover_app _ _ _ _ Hbefore).
    apply recover_insert. now apply containsValue_false. }
  repeat split.
  - intros Hk. apply Hdup, Hk.
  - intros Hk. apply Hins, Hk.
  - intros Hfail.
    destruct (containsValue (pids l1) (ContainerState.pid state)) eqn:E.
    + now apply containsValue_true.
    + apply containsValue_false in E. rewrite (Hins E) in Hfail.
      simpl in Hfail. exfalso. symmetry in Hfail.
      exact (Failure_ne_ready _ _ Hfail).
  - intros Hk. now rewrite (Hdup Hk).
  - intros Hk. apply Hdup. eauto.
Qed.


(** ** Fork, destroy and status *)

Lemma fork_rejects_namespaces (containerId : ContainerID)
    (path : string) (argv : list string) (in_ out err : IO)
    (flags : option FlagsBase) (environment : option (gmap string string))
    (namespaces : option Z) (parentHooks : list Hook) (l : Launcher) :
  requests_namespaces namespaces = true →
  fork containerId path argv in_ out err flags environment namespaces
    parentHooks l
  = (Error unsupported_message, l).
Proof. intros Hns. unfold fork. now rewrite Hns. Qed.

Lemma fork_rejects_registered (containerId : ContainerID)
    (path : string) (argv : list string) (in_ out err : IO)
    (flags : option FlagsBase) (environment : option (gmap string string))
    (namespaces : option Z) (parentHooks : list Hook) (l : Launcher)
    (pid : pid_t) :
  requests_namespaces namespaces = false →
  pids l !! containerId = Some pid →
  fork containerId path argv in_ out err flags environment namespaces
    parentHooks l
  = (Error (already_forked_message containerId), l).
Proof.
  intros Hns Hentry. unfold fork. rewrite Hns.
  unfold contains. now rewrite Hentry.
Qed.

Lemma requests_namespaces_nonzero (n : Z) :
  n ≠ 0%Z → requests_namespaces (Some n) = true.
Proof.
  intros Hn. simpl. destruct (Z.eqb_spec n 0); [contradiction | reflexivity].
Qed.

(** C6: a fork that asks for namespaces (a value that is present and not
    zero) fails with the namespaces-unsupported error; the launcher is left
    as it was, so no call to [subprocess] was made and the registry has not
    changed. *)
Theorem fork_namespaces_unsupported (containerId : ContainerID)
    (path : string) (argv : list string) (in_ out err : IO)
    (flags : option FlagsBase) (environment : option (gmap string string))
    (n : Z) (parentHooks : list Hook) (l : Launcher) :
  n ≠ 0%Z →
  fork containerId path argv in_ out err flags environment (Some n)
    parentHooks l
  = (Error unsupported_message, l)
  ∧ calls (snd (fork containerId path argv in_ out err flags environment
                  (Some n) parentHooks l)) = calls l
  ∧ pids (snd (fork containerId path argv in_ out err flags environment
                 (Some n) parentHooks l)) = pids l.
Proof.
  intros Hn.
  now rewrite fork_rejects_namespaces by now apply requests_namespaces_nonzero.
Qed.

(** C5, as the code has it: a fork on an identity that has a registry entry
    fails and leaves the launcher as it was: no call to [subprocess] is made
    and the entry still holds the first handle. The error is the
    already-forked one, naming the identity, when the fork asks for no
    namespaces, and the namespaces-unsupported one when it asks for some,
    the test [fork] makes first. *)
Theorem fork_already_forked (containerId : ContainerID)
    (path : string) (argv : list string) (in_ out err : IO)
    (flags : option FlagsBase) (environment : option (gmap string string))
    (namespaces : option Z) (parentHooks : list Hook) (l : Launcher)
    (pid : pid_t) :
  pids l !! containerId = Some pid →
  (requests_namespaces namespaces = false →
     fork containerId path argv in_ out err flags environment namespaces
       parentHooks l
     = (Error (already_forked_message containerId), l))
  ∧ (requests_namespaces namespaces = true →
     fork containerId path argv in_ out err flags environment namespaces
       parentHooks l
     = (Error unsupported_message, l))
  ∧ (∃ message,
       fst (fork containerId path argv in_ out err flags environment
              namespaces parentHooks l) = Error message)
  ∧ snd (fork containerId path argv in_ out err flags environment
           namespaces parentHooks l) = l
  ∧ calls (snd (fork containerId path argv in_ out err flags environment
                  namespaces parentHooks l)) = calls l
  ∧ pids (snd (fork containerId path argv in_ out err flags environment
                 namespaces parentHooks l)) !! containerId = Some pid.
Proof.
  intros Hentry. split; [| split].
  - intros Hns. now apply fork_rejects_registered with pid.
  - intros Hns. now apply fork_rejects_namespaces.
  - destruct (requests_namespaces namespaces) eqn:Hns.
    + rewrite fork_rejects_namespaces by assumption. simpl. eauto.
    + rewrite (fork_rejects_registered _ _ _ _ _ _ _ _ _ _ _ _ Hns Hentry).
      simpl. eauto.
Qed.

Lemma fork_without_namespaces (containerId : ContainerID)
    (path : string) (argv : list string) (in_ out err : IO)
    (flags : option FlagsBase) (environment : option (gmap string string))
    (namespaces : option Z) (parentHooks : list Hook) (l : Launcher) :
  requests_namespaces namespaces = false →
  pids l !! containerId = None →
  fork containerId path argv in_ out err flags environment namespaces
    parentHooks l
  = let request :=
      fork_request path argv in_ out err flags environment parentHooks in
    let l' := called (CallSubprocess request) l in
    match subprocess (calls l) request with
    | Error message =>
        (Error ("Failed to fork a child process: " +:+ message), l')
    | Ok child =>
        (Ok (Subprocess.pid child), put containerId (Subprocess.pid child) l')
    end.
Proof.
  intros Hns Hentry. unfold fork. rewrite Hns.
  unfold contains. rewrite Hentry. reflexivity.
Qed.

(** C10: a namespaces request that is present and zero is treated as an
    absent one: the fork is the fork without request, and on an identity
    without entry it goes on to the spawn, making the one call to
    [subprocess] and ending as that call decides. The
    namespaces-unsupported error is returned exactly for a request that is
    present and not zero. *)
Theorem fork_zero_namespaces (containerId : ContainerID)
    (path : string) (argv : list string) (in_ out err : IO)
    (flags : option FlagsBase) (environment : option (gmap string string))
    (parentHooks : list Hook) (l : Launcher) :
  fork containerId path argv in_ out err flags environment (Some 0%Z)
    parentHooks l
  = fork containerId path argv in_ out err flags environment None
      parentHooks l
  ∧ (pids l !! containerId = None →
     calls (snd (fork containerId path argv in_ out err flags environment
                   (Some 0%Z) parentHooks l))
     = calls l ++
       [CallSubprocess
          (fork_request path argv in_ out err flags environment parentHooks)]
     ∧ fork containerId path argv in_ out err flags environment (Some 0%Z)
         parentHooks l
       = match subprocess (calls l)
                 (fork_request path argv in_ out err flags environment
                    parentHooks) with
         | Error message =>
             (Error ("Failed to fork a child process: " +:+ message),
              called (CallSubprocess
                        (fork_request path argv in_ out err flags environment
                           parentHooks)) l)
         | Ok child =>
             (Ok (Subprocess.pid child),
              put containerId (Subprocess.pid child)
                (called (CallSubprocess
                           (fork_request path argv in_ out err flags
                              environment parentHooks)) l))
         end)
  ∧ ∀ namespaces,
      fst (fork containerId path argv in_ out err flags environment
             namespaces parentHooks l) = Error unsupported_message
      ↔ ∃ n, namespaces = Some n ∧ n ≠ 0%Z.
Proof.
  split; [reflexivity |]. split.
  - intros Hentry.
    rewrite (fork_without_namespaces containerId path argv in_ out err flags
               environment (Some 0%Z) parentHooks l eq_refl Hentry).
    simpl. split; [| reflexivity].
    now destruct (subprocess _ _).
  - intros namespaces. split.
    + intros Hfail.
      destruct namespaces as [n |].
      * destruct (Z.eqb_spec n 0) as [-> | Hn]; [| eauto].
        exfalso. revert Hfail. unfold fork. simpl.
        destruct (contains (pids l) containerId); simpl.
        -- discriminate.
        -- destruct (subprocess _ _); simpl; discriminate.
      * exfalso. revert Hfail. unfold fork. simpl.
        destruct (contains (pids l) containerId); simpl.
        -- discriminate.
        -- destruct (subprocess _ _); simpl; discriminate.
    + intros (n & -> & Hn).
      now rewrite fork_rejects_namespaces
        by now apply requests_namespaces_nonzero.
Qed.

Lemma status_registered (containerId : ContainerID) (l : Launcher)
    (pid : pid_t) :
  pids l !! containerId = Some pid →
  status containerId l = (ready {| executor_pid := Some pid |}, l).
Proof. intros H. unfold status. now rewrite H. Qed.

Lemma status_unregistered (containerId : ContainerID) (l : Launcher) :
  pids l !! containerId = None →
  status containerId l = (Failure "Container does not exist!", l).
Proof. intros H. unfold status. now rewrite H. Qed.

Lemma status_launcher (containerId : ContainerID) (l : Launcher) :
  snd (status containerId l) = l.
Proof. unfold status. now destruct (pids l !! containerId). Qed.

Lemma destroy_registered (containerId : ContainerID) (l : Launcher)
    (pid : pid_t) :
  pids l !! containerId = Some pid →
  destroy containerId l
  = (then_ (reap pid) bound_destroy,
     called (CallReap pid)
       (erase containerId (called (CallKillTree pid SIGKILL true true) l))).
Proof. intros H. unfold destroy. now rewrite H. Qed.

Lemma destroy_unregistered (containerId : ContainerID) (l : Launcher) :
  pids l !! containerId = None →
  destroy containerId l
  = (Failure ("Unknown container " +:+ value containerId), l).
Proof. intros H. unfold destroy. now rewrite H. Qed.

(** A successful fork registers the handle it returns. *)
Lemma fork_ok_registered (containerId : ContainerID)
    (path : string) (argv : list string) (in_ out err : IO)
    (flags : option FlagsBase) (environment : option (gmap string string))
    (namespaces : option Z) (parentHooks : list Hook) (l l' : Launcher)
    (handle : pid_t) :
  fork containerId path argv in_ out err flags environment namespaces
    parentHooks l = (Ok handle, l') →
  pids l' !! containerId = Some handle.
Proof.
  unfold fork. destruct (requests_namespaces namespaces); [discriminate |].
  destruct (contains (pids l) containerId); [discriminate |].
  destruct (subprocess _ _) as [child | message]; [| discriminate].
  intros [= <- <-]. simpl. apply lookup_insert_eq.
Qed.

(** C7: after a successful fork, [status] on the same identity gives a
    snapshot whose pid is the handle the fork returned; [status] leaves the
    launcher, registry included, as it was, whatever it is asked. *)
Theorem fork_then_status (containerId : ContainerID)
    (path : string) (argv : list string) (in_ out err : IO)
    (flags : option FlagsBase) (environment : option (gmap string string))
    (namespaces : option Z) (parentHooks : list Hook) (l l' : Launcher)
    (handle : pid_t) :
  fork containerId path argv in_ out err flags environment namespaces
    parentHooks l = (Ok handle, l') →
  status containerId l' = (ready {| executor_pid := Some handle |}, l')
  ∧ ∀ containerId2 (l2 : Launcher), snd (status containerId2 l2) = l2.
Proof.
  intros Hfork. split.
  - apply status_registered. exact (fork_ok_registered _ _ _ _ _ _ _ _ _ _ _ _ _ Hfork).
  - intros containerId2 l2. apply status_launcher.
Qed.

(** C8: on an identity without registry entry, [destroy] fails with the
    unknown-container failure and [status] with its does-not-exist failure,
    both leaving the launcher as it was; and after a [destroy] of a
    registered identity, a second [destroy] of it fails in that way. *)
Theorem destroy_status_unknown_container (containerId : ContainerID)
    (l : Launcher) :
  pids l !! containerId = None →
  destroy containerId l
    = (Failure ("Unknown container " +:+ value containerId), l)
  ∧ status containerId l = (Failure "Container does not exist!", l)
  ∧ ∀ (l0 : Launcher) (pid : pid_t),
      pids l0 !! containerId = Some pid →
      destroy containerId (snd (destroy containerId l0))
      = (Failure ("Unknown container " +:+ value containerId),
         snd (destroy containerId l0)).
Proof.
  intros Hentry. repeat split.
  - now apply destroy_unregistered.
  - now apply status_unregistered.
  - intros l0 pid H0. apply destroy_unregistered.
    rewrite (destroy_registered _ _ _ H0). simpl. apply lookup_delete_eq.
Qed.

(** What [_destroy] makes of each state of the wait. *)
Lemma _destroy_cases (future : FutureState (option Z)) (reaper : Reaper) :
  _destroy future reaper =
  match future with
  | READY _ => READY mkNothing
  | FAILED cause => FAILED ("Failed to kill all processes: " +:+ cause)
  | _ => FAILED "Failed to kill all processes: unknown error"
  end.
Proof. now destruct future. Qed.

(** C3, on the code: the future of a [destroy] of a registered identity,
    observed against the reaper, is ready exactly when the wait on the
    entry's pid is ready, whatever the exit status, known or not, and is
    pending while the wait is; the answer of [killtree] plays no part in it.
    A failed wait fails it with the wait's own message and a discarded wait
    discards it: [_destroy] is only ever run on a ready wait, so its
    "Failed to kill all processes" branch is never taken. *)
Theorem destroy_future_outcomes (containerId : ContainerID) (l : Launcher)
    (pid : pid_t) (reaper : Reaper) :
  pids l !! containerId = Some pid →
  (fst (destroy containerId l) reaper = READY mkNothing
   ↔ ∃ exit_status : option Z, reaper pid = READY exit_status)
  ∧ (reaper pid = PENDING → fst (destroy containerId l) reaper = PENDING)
  ∧ (∀ cause, reaper pid = FAILED cause →
       fst (destroy containerId l) reaper = FAILED cause)
  ∧ (reaper pid = DISCARDED →
       fst (destroy containerId l) reaper = DISCARDED)
  ∧ (∀ exit_status, bound_destroy exit_status reaper = READY mkNothing).
Proof.
  intros Hentry. rewrite (destroy_registered _ _ _ Hentry). simpl.
  unfold then_, reap. repeat split.
  - destruct (reaper pid) eqn:E; try discriminate. eauto.
  - intros [exit_status ->]. reflexivity.
  - now intros ->.
  - now intros cause ->.
  - now intros ->.
Qed.

(** C4: [destroy] of a registered identity returns a launcher whose
    registry is the old one without that identity, and it does so whatever
    the state of the returned future, which is pending as long as the wait
    is. A fork on the identity is turned down as already forked on the
    launcher before the destroy and goes on to the spawn on the launcher
    after it. *)
Theorem destroy_erases_entry (containerId : ContainerID) (l : Launcher)
    (pid : pid_t) (path : string) (argv : list string) (in_ out err : IO)
    (flags : option FlagsBase) (environment : option (gmap string string))
    (namespaces : option Z) (parentHooks : list Hook) :
  pids l !! containerId = Some pid →
  requests_namespaces namespaces = false →
  let l' := snd (destroy containerId l) in
  let request :=
    fork_request path argv in_ out err flags environment parentHooks in
  pids l' = delete containerId (pids l)
  ∧ pids l' !! containerId = None
  ∧ (∀ reaper : Reaper,
       reaper pid = PENDING → fst (destroy containerId l) reaper = PENDING)
  ∧ fork containerId path argv in_ out err flags environment namespaces
      parentHooks l
    = (Error (already_forked_message containerId), l)
  ∧ calls (snd (fork containerId path argv in_ out err flags environment
                  namespaces parentHooks l'))
    = calls l' ++ [CallSubprocess request]
  ∧ (∀ child, subprocess (calls l') request = Ok child →
       fork containerId path argv in_ out err flags environment namespaces
         parentHooks l'
       = (Ok (Subprocess.pid child),
          put containerId (Subprocess.pid child)
            (called (CallSubprocess request) l'))).
Proof.
  intros Hentry Hns l' request.
  assert (Hl' : pids l' = delete containerId (pids l)).
  { unfold l'. now rewrite (destroy_registered _ _ _ Hentry). }
  assert (Hgone : pids l' !! containerId = None).
  { rewrite Hl'. apply lookup_delete_eq. }
  assert (Hfork := fork_without_namespaces containerId path argv in_ out err
                     flags environment namespaces parentHooks l' Hns Hgone).
  fold request in Hfork. simpl in Hfork.
  repeat split; try assumption.
  - intros reaper Hpending. rewrite (destroy_registered _ _ _ Hentry). simpl.
    unfold then_, reap. now rewrite Hpending.
  - now apply fork_rejects_registered with pid.
  - rewrite Hfork. now destruct (subprocess (calls l') request).
  - intros child Hchild. rewrite Hfork. now rewrite Hchild.
Qed.

(** ** Recovery as a whole *)

Lemma registered_calls (states : list ContainerState.t) (l : Launcher) :
  calls (registered states l) = calls l.
Proof.
  revert l. induction states as [| s states IH]; intros l; simpl.
  - reflexivity.
  - now rewrite IH.
Qed.

(** X1: [recover] ends in one of two ways. Either every association is
    inserted, in order, and the result is the empty set; or it stops at the
    first association whose handle is a value of the registry built so far,
    with the duplicate-pid failure naming that association, and the registry
    holds the associations before it. *)
Theorem recover_outcome (states : list ContainerState.t) (l : Launcher) :
  recover states l = (ready ∅, registered states l)
  ∨ ∃ before state after,
      states = before ++ state :: after
      ∧ recover before l = (ready ∅, registered before l)
      ∧ containsValue (pids (registered before l)) (ContainerState.pid state)
        = true
      ∧ recover states l
        = (Failure (duplicate_pid_message state), registered before l).
Proof.
  revert l. induction states as [| s states IH]; intros l.
  - now left.
  - destruct (containsValue (pids l) (ContainerState.pid s)) eqn:E.
    + right. exists [], s, states. repeat split; try assumption.
      now apply recover_duplicate.
    + rewrite (recover_insert _ _ _ E).
      destruct (IH (register s l))
        as [Hok | (before & state & after & -> & Hbefore & Hdup & Hfail)].
      * now left.
      * right. exists (s :: before), state, after. repeat split.
        -- now rewrite (recover_insert _ _ _ E).
        -- exact Hdup.
        -- exact Hfail.
Qed.

Lemma recover_registers_prefix (states : list ContainerState.t)
    (l : Launcher) :
  ∃ before after,
    states = before ++ after ∧ snd (recover states l) = registered before l.
Proof.
  revert l. induction states as [| s states IH]; intros l.
  - exists [], []. now split.
  - destruct (containsValue (pids l) (ContainerState.pid s)) eqn:E.
    + exists [], (s :: states). rewrite (recover_duplicate _ _ _ E). now split.
    + rewrite (recover_insert _ _ _ E).
      destruct (IH (register s l)) as (before & after & -> & ->).
      exists (s :: before), after. now split.
Qed.

(** X2: [recover] calls no collaborator and touches the entries of the
    identities of its list only: every other identity keeps its entry, or
    its lack of one, whether the recovery succeeds or fails. *)
Theorem recover_frame (states : list ContainerState.t) (l : Launcher) :
  calls (snd (recover states l)) = calls l
  ∧ ∀ k, ¬ In k (map ContainerState.container_id states) →
         pids (snd (recover states l)) !! k = pids l !! k.
Proof.
  destruct (recover_registers_prefix states l) as (before & after & -> & ->).
  split.
  - apply registered_calls.
  - intros k Hk. apply registered_other.
    intros Hin. apply Hk. rewrite map_app. apply in_or_app. now left.
Qed.

Lemma registered_size (states : list ContainerState.t) (l : Launcher) :
  NoDup (map ContainerState.container_id states) →
  (∀ s, In s states → pids l !! ContainerState.container_id s = None) →
  size (pids (registered states l)) = (length states + size (pids l))%nat.
Proof.
  revert l. induction states as [| s states IH]; intros l Hnd Hfree.
  - reflexivity.
  - simpl in Hnd. apply NoDup_cons in Hnd as [Hs Hnd].
    change (registered (s :: states) l) with (registered states (register s l)).
    rewrite IH.
    + simpl. rewrite map_size_insert_None by (apply Hfree; now left). lia.
    + assumption.
    + intros s' Hin. simpl. rewrite lookup_insert_ne.
      * apply Hfree. now right.
      * intros Heq. apply Hs. rewrite Heq.
        apply list_elem_of_In. now apply in_map.
Qed.

(** X3: on an empty registry, associations with pairwise distinct
    identities and pairwise distinct handles are all recovered: the result
    is the empty set, the registry has exactly one entry per association,
    each identity with its own handle, and nothing else. *)
Theorem recover_distinct_registers (states : list ContainerState.t)
    (l : Launcher) :
  pids l = ∅ →
  NoDup (map ContainerState.container_id states) →
  NoDup (map ContainerState.pid states) →
  recover states l = (ready ∅, registered states l)
  ∧ size (pids (snd (recover states l))) = length states
  ∧ (∀ s, In s states →
       pids (snd (recover states l)) !! ContainerState.container_id s
       = Some (ContainerState.pid s))
  ∧ (∀ k, ¬ In k (map ContainerState.container_id states) →
       pids (snd (recover states l)) !! k = None).
Proof.
  intros Hempty Hids Hpids.
  assert (E : recover states l = (ready ∅, registered states l)).
  { rewrite <- (app_nil_r states) at 1. rewrite recover_distinct.
    - reflexivity.
    - assumption.
    - intros s _ [k Hk]. rewrite Hempty in Hk. now rewrite lookup_empty in Hk. }
  rewrite E. simpl. repeat split.
  - rewrite registered_size.
    + rewrite Hempty, map_size_empty. lia.
    + assumption.
    + intros s _. rewrite Hempty. apply lookup_empty.
  - intros s Hin. now apply registered_lookup.
  - intros k Hk. rewrite registered_other by assumption.
    rewrite Hempty. apply lookup_empty.
Qed.

Lemma register_handles_unique (state : ContainerState.t) (l : Launcher) :
  containsValue (pids l) (ContainerState.pid state) = false →
  handles_unique (pids l) →
  handles_unique (pids (register state l)).
Proof.
  intros Hfree Hu k1 k2 v H1 H2. simpl in H1, H2.
  apply containsValue_false in Hfree.
  destruct (decide (ContainerState.container_id state = k1)) as [E1 | N1],
           (decide (ContainerState.container_id state = k2)) as [E2 | N2].
  - congruence.
  - subst k1. rewrite lookup_insert_eq in H1. injection H1 as <-.
    rewrite lookup_insert_ne in H2 by assumption. exfalso. eauto.
  - subst k2. rewrite lookup_insert_eq in H2. injection H2 as <-.
    rewrite lookup_insert_ne in H1 by assumption. exfalso. eauto.
  - rewrite lookup_insert_ne in H1, H2 by assumption. eauto.
Qed.

(** X4: [recover] and [destroy] keep handles unique: if no handle is
    registered for two identities before, none is after, whether the
    recovery succeeds or fails and whichever identity is destroyed. *)
Theorem recover_destroy_keep_handles_unique (states : list ContainerState.t)
    (containerId : ContainerID) (l : Launcher) :
  handles_unique (pids l) →
  handles_unique (pids (snd (recover states l)))
  ∧ handles_unique (pids (snd (destroy containerId l))).
Proof.
  intros Hu. split.
  - revert l Hu. induction states as [| s states IH]; intros l Hu.
    + exact Hu.
    + destruct (containsValue (pids l) (ContainerState.pid s)) eqn:E.
      * now rewrite (recover_duplicate _ _ _ E).
      * rewrite (recover_insert _ _ _ E). apply IH.
        now apply register_handles_unique.
  - unfold destroy. destruct (pids l !! containerId) as [pid |]; simpl.
    + intros k1 k2 v H1 H2.
      apply lookup_delete_Some in H1 as [_ H1].
      apply lookup_delete_Some in H2 as [_ H2]. eauto.
    + exact Hu.
Qed.

Lemma recover_ready_registered (states : list ContainerState.t)
    (l l1 : Launcher) :
  recover states l = (ready ∅, l1) → l1 = registered states l.
Proof.
  revert l. induction states as [| s states IH]; intros l Hok.
  - simpl in Hok. now injection Hok as <-.
  - destruct (containsValue (pids l) (ContainerState.pid s)) eqn:E.
    + rewrite (recover_duplicate _ _ _ E) in Hok.
      injection Hok as Hf _. exfalso. exact (Failure_ne_ready _ _ Hf).
    + rewrite (recover_insert _ _ _ E) in Hok. now apply IH.
Qed.

(** X13: a recovery cannot be run twice: after the successful recovery of
    a non-empty list with pairwise distinct identities, recovering the same
    list again fails at its first association with the duplicate-pid
    failure, and leaves the registry as the first recovery built it. *)
Theorem recover_twice_fails (state : ContainerState.t)
    (states : list ContainerState.t) (l l1 : Launcher) :
  NoDup (map ContainerState.container_id (state :: states)) →
  recover (state :: states) l = (ready ∅, l1) →
  recover (state :: states) l1 = (Failure (duplicate_pid_message state), l1).
Proof.
  intros Hids Hok. apply recover_duplicate. apply containsValue_true.
  exists (ContainerState.container_id state).
  rewrite (recover_ready_registered _ _ _ Hok).
  apply registered_lookup; [assumption | now left].
Qed.

(** ** Fork as a whole *)

(** X5: when the spawn fails, [fork] fails with the spawn's message behind
    "Failed to fork a child process: "; the call to [subprocess] has been
    made, and the registry is as it was, the identity still without
    entry. *)
Theorem fork_spawn_failure (containerId : ContainerID)
    (path : string) (argv : list string) (in_ out err : IO)
    (flags : option FlagsBase) (environment : option (gmap string string))
    (namespaces : option Z) (parentHooks : list Hook) (l : Launcher)
    (message : string) :
  requests_namespaces namespaces = false →
  pids l !! containerId = None →
  subprocess (calls l)
    (fork_request path argv in_ out err flags environment parentHooks)
  = Error message →
  fork containerId path argv in_ out err flags environment namespaces
    parentHooks l
  = (Error ("Failed to fork a child process: " +:+ message),
     called (CallSubprocess
               (fork_request path argv in_ out err flags environment
                  parentHooks)) l)
  ∧ pids (snd (fork containerId path argv in_ out err flags environment
                 namespaces parentHooks l)) = pids l
  ∧ contains
      (pids (snd (fork containerId path argv in_ out err flags environment
                    namespaces parentHooks l))) containerId = false.
Proof.
  intros Hns Hentry Hspawn.
  rewrite (fork_without_namespaces _ _ _ _ _ _ _ _ _ _ _ Hns Hentry).
  simpl. rewrite Hspawn. simpl. repeat split.
  unfold contains. now rewrite Hentry.
Qed.

(** X6: [fork] changes the registry only when it returns a handle, and then
    only by giving that handle to its identity, which had no entry; on every
    error the registry is as it was. It calls [subprocess] at most once and
    no other collaborator. *)
Theorem fork_outcome (containerId : ContainerID)
    (path : string) (argv : list string) (in_ out err : IO)
    (flags : option FlagsBase) (environment : option (gmap string string))
    (namespaces : option Z) (parentHooks : list Hook) (l : Launcher) :
  match fst (fork containerId path argv in_ out err flags environment
               namespaces parentHooks l) with
  | Ok handle =>
      pids l !! containerId = None
      ∧ requests_namespaces namespaces = false
      ∧ pids (snd (fork containerId path argv in_ out err flags environment
                     namespaces parentHooks l))
        = <[containerId := handle]> (pids l)
      ∧ calls (snd (fork containerId path argv in_ out err flags environment
                      namespaces parentHooks l))
        = calls l ++
          [CallSubprocess
             (fork_request path argv in_ out err flags environment
                parentHooks)]
  | Error _ =>
      pids (snd (fork containerId path argv in_ out err flags environment
                   namespaces parentHooks l)) = pids l
      ∧ (calls (snd (fork containerId path argv in_ out err flags environment
                       namespaces parentHooks l)) = calls l
         ∨ calls (snd (fork containerId path argv in_ out err flags
                         environment namespaces parentHooks l))
           = calls l ++
             [CallSubprocess
                (fork_request path argv in_ out err flags environment
                   parentHooks)])
  end.
Proof.
  destruct (requests_namespaces namespaces) eqn:Hns.
  - rewrite fork_rejects_namespaces by assumption. simpl. auto.
  - destruct (pids l !! containerId) as [pid |] eqn:Hentry.
    + rewrite (fork_rejects_registered _ _ _ _ _ _ _ _ _ _ _ _ Hns Hentry).
      simpl. auto.
    + rewrite (fork_without_namespaces _ _ _ _ _ _ _ _ _ _ _ Hns Hentry).
      simpl. destruct (subprocess _ _) as [child | message]; simpl; auto.
Qed.

(** X7: [fork] does not look at the handles already registered: when the
    spawn returns a pid that another identity holds, the fork succeeds and
    both identities hold that pid afterwards, so handles are no longer
    unique. *)
Theorem fork_may_alias_handle (containerId other : ContainerID)
    (path : string) (argv : list string) (in_ out err : IO)
    (flags : option FlagsBase) (environment : option (gmap string string))
    (namespaces : option Z) (parentHooks : list Hook) (l : Launcher)
    (child : Subprocess.t) :
  other ≠ containerId →
  pids l !! other = Some (Subprocess.pid child) →
  pids l !! containerId = None →
  requests_namespaces namespaces = false →
  subprocess (calls l)
    (fork_request path argv in_ out err flags environment parentHooks)
  = Ok child →
  fst (fork containerId path argv in_ out err flags environment namespaces
         parentHooks l) = Ok (Subprocess.pid child)
  ∧ pids (snd (fork containerId path argv in_ out err flags environment
                 namespaces parentHooks l)) !! containerId
    = Some (Subprocess.pid child)
  ∧ pids (snd (fork containerId path argv in_ out err flags environment
                 namespaces parentHooks l)) !! other
    = Some (Subprocess.pid child)
  ∧ ¬ handles_unique
        (pids (snd (fork containerId path argv in_ out err flags environment
                      namespaces parentHooks l))).
Proof.
  intros Hne Hother Hentry Hns Hspawn.
  rewrite (fork_without_namespaces _ _ _ _ _ _ _ _ _ _ _ Hns Hentry).
  simpl. rewrite Hspawn. simpl.
  assert (H1 : <[containerId := Subprocess.pid child]> (pids l) !! containerId
               = Some (Subprocess.pid child)) by apply lookup_insert_eq.
  assert (H2 : <[containerId := Subprocess.pid child]> (pids l) !! other
               = Some (Subprocess.pid child)).
  { rewrite lookup_insert_ne by congruence. exact Hother. }
  repeat split; try assumption.
  intros Hu. apply Hne. exact (Hu _ _ _ H2 H1).
Qed.

(** ** Destroy as a whole *)

(** X8: [destroy] of a registered identity leaves the entry of every other
    identity as it was, and makes two calls, in this order: the kill of the
    tree of the entry's pid with [SIGKILL], groups and sessions included,
    then the wait for that pid. *)
Theorem destroy_frame (containerId : ContainerID) (l : Launcher)
    (pid : pid_t) :
  pids l !! containerId = Some pid →
  (∀ other, other ≠ containerId →
     pids (snd (destroy containerId l)) !! other = pids l !! other)
  ∧ calls (snd (destroy containerId l))
    = calls l ++ [CallKillTree pid SIGKILL true true; CallReap pid].
Proof.
  intros Hentry. rewrite (destroy_registered _ _ _ Hentry). simpl. split.
  - intros other Hne. apply lookup_delete_ne. congruence.
  - now rewrite <- app_assoc.
Qed.

(** X9: a successful [fork] followed by [destroy] of the same identity
    gives back the registry as it was before the fork; the calls made are
    the spawn, the kill of the returned handle and the wait for it, and the
    future of the destroy is the one of that wait. *)
Theorem fork_destroy_round_trip (containerId : ContainerID)
    (path : string) (argv : list string) (in_ out err : IO)
    (flags : option FlagsBase) (environment : option (gmap string string))
    (namespaces : option Z) (parentHooks : list Hook) (l l' : Launcher)
    (handle : pid_t) :
  fork containerId path argv in_ out err flags environment namespaces
    parentHooks l = (Ok handle, l') →
  pids (snd (destroy containerId l')) = pids l
  ∧ calls (snd (destroy containerId l'))
    = calls l ++
      [CallSubprocess
         (fork_request path argv in_ out err flags environment parentHooks);
       CallKillTree handle SIGKILL true true; CallReap handle]
  ∧ fst (destroy containerId l') = then_ (reap handle) bound_destroy.
Proof.
  intros Hfork.
  assert (Hreg := fork_ok_registered _ _ _ _ _ _ _ _ _ _ _ _ _ Hfork).
  rewrite (destroy_registered _ _ _ Hreg). simpl.
  revert Hfork. unfold fork.
  destruct (requests_namespaces namespaces); [discriminate |].
  unfold contains. destruct (pids l !! containerId) eqn:Hentry; [discriminate |].
  destruct (subprocess _ _) as [child | message]; [| discriminate].
  intros [= <- <-]. simpl. repeat split.
  - rewrite delete_insert_eq. now apply delete_id.
  - now rewrite <- !app_assoc.
Qed.

(** ** Recovery, then status and destroy *)

(** X10: after the recovery of associations with pairwise distinct
    identities and pairwise distinct handles, none of them a value of the
    registry before, [status] on each recovered identity gives its recovered
    pid, and [destroy] of it kills and waits for that pid. *)
Theorem recover_then_status_destroy (states : list ContainerState.t)
    (l : Launcher) (s : ContainerState.t) :
  NoDup (map ContainerState.container_id states) →
  NoDup (map ContainerState.pid states) →
  (∀ s', In s' states → ¬ ∃ k, pids l !! k = Some (ContainerState.pid s')) →
  In s states →
  fst (status (ContainerState.container_id s) (snd (recover states l)))
  = ready {| executor_pid := Some (ContainerState.pid s) |}
  ∧ fst (destroy (ContainerState.container_id s) (snd (recover states l)))
    = then_ (reap (ContainerState.pid s)) bound_destroy
  ∧ calls (snd (destroy (ContainerState.container_id s)
                  (snd (recover states l))))
    = calls l ++ [CallKillTree (ContainerState.pid s) SIGKILL true true;
                  CallReap (ContainerState.pid s)].
Proof.
  intros Hids Hpids Hfree Hin.
  assert (E : recover states l = (ready ∅, registered states l)).
  { rewrite <- (app_nil_r states) at 1. now rewrite recover_distinct. }
  rewrite E. simpl.
  assert (Hreg := registered_lookup states l s Hids Hin).
  rewrite (status_registered _ _ _ Hreg), (destroy_registered _ _ _ Hreg).
  simpl. repeat split.
  rewrite registered_calls. now rewrite <- app_assoc.
Qed.

End PosixLauncher.

(** * Properties of the path derivation *)

Section BuildPathFacts.

Variable join2 : string → string → string.
Variable join3 : string → string → string → string.

Lemma labels_up_ancestors (c : ContainerID) :
  labels_up c = value c :: map value (ancestors c).
Proof.
  induction c as [v | v p IH] using ContainerID_chain_ind; simpl.
  - reflexivity.
  - now rewrite IH.
Qed.

(** One round is all the loop ever makes: after the assignment the
    identity has no parent left. *)
Lemma buildPath_loop_once (fuel : nat) (prefix : string) (c : ContainerID)
    (path : string) :
  buildPath_loop join3 (S fuel) prefix c path
  = if has_parent c then join3 prefix "" path else path.
Proof.
  simpl. destruct (has_parent c); [| reflexivity].
  now destruct fuel.
Qed.

(** C2, on the code: the derivation is total, and for an identity without
    parent it is the join of the prefix and the label, the one segment the
    claim asks for. For an identity with a parent it is not the join of one
    segment per level: whatever the ancestors, the loop makes a single
    round, with the empty label, and the result is the three-argument join
    of the prefix, the empty label and the join of prefix and own label.
    Any number of rounds allowed beyond the first gives the same. *)
Theorem buildPathFromHierarchy_drops_ancestors (prefix : string) :
  (∀ v, buildPathFromHierarchy join2 join3 (mkContainerID v None) prefix
        = join2 prefix v
        ∧ buildPathFromHierarchy join2 join3 (mkContainerID v None) prefix
          = join_segments join2 join3
              (segments prefix (mkContainerID v None)))
  ∧ (∀ v p, buildPathFromHierarchy join2 join3 (mkContainerID v (Some p))
              prefix
            = join3 prefix "" (join2 prefix v))
  ∧ (∀ c fuel, buildPath_loop join3 (S fuel) prefix c
                 (join2 prefix (value c))
               = buildPathFromHierarchy join2 join3 c prefix)
  ∧ (∀ c, length (segments prefix c) = S (length (ancestors c))).
Proof.
  split; [| split; [| split]].
  - intros v. split; reflexivity.
  - intros v p. unfold buildPathFromHierarchy.
    now rewrite buildPath_loop_once.
  - intros c fuel. unfold buildPathFromHierarchy.
    now rewrite !buildPath_loop_once.
  - intros c. unfold segments, labels_root_to_leaf.
    rewrite length_map, length_rev, labels_up_ancestors. simpl.
    now rewrite length_map.
Qed.

End BuildPathFacts.

(** * The exit-status checkpoint path *)

(** The field of the agent's [Flags] that the launcher reads. *)
Record Flags : Type := { runtime_dir : string }.

Definition POSIX_LAUNCHER_NAME : string := "posix".

Section CheckpointPath.

(** [path::join] with two, three and five arguments. *)
Variable join2 : string → string → string.
Variable join3 : string → string → string → string.
Variable join5 : string → string → string → string → string → string.

(** [PosixLauncher::getExitStatusCheckpointPath]. *)
Definition getExitStatusCheckpointPath (flags : Flags)
    (containerId : ContainerID) : string :=
  join5 (runtime_dir flags) "launcher" POSIX_LAUNCHER_NAME
    (buildPathFromHierarchy join2 join3 containerId "containers")
    "exit_status".

(** X12: the checkpoint path of an identity without parent is the join of
    the runtime directory, "launcher", "posix", the join of "containers"
    and the label, and "exit_status". For an identity with a parent the
    ancestors do not enter it: two nested identities with the same label
    have the same checkpoint path, whatever their parents. *)
Theorem getExitStatusCheckpointPath_ignores_ancestors (flags : Flags)
    (label : string) (parent1 parent2 : ContainerID) :
  getExitStatusCheckpointPath flags (mkContainerID label None)
  = join5 (runtime_dir flags) "launcher" "posix" (join2 "containers" label)
      "exit_status"
  ∧ getExitStatusCheckpointPath flags (mkContainerID label (Some parent1))
    = join5 (runtime_dir flags) "launcher" "posix"
        (join3 "containers" "" (join2 "containers" label)) "exit_status"
  ∧ getExitStatusCheckpointPath flags (mkContainerID label (Some parent1))
    = getExitStatusCheckpointPath flags (mkContainerID label (Some parent2)).
Proof.
  unfold getExitStatusCheckpointPath, buildPathFromHierarchy,
    POSIX_LAUNCHER_NAME.
  now rewrite !buildPath_loop_once.
Qed.

End CheckpointPath.

(** * Concrete runs *)

(** ** Sample identities and collaborators *)

Definition idA : ContainerID := mkContainerID "A" None.
Definition idB : ContainerID := mkContainerID "B" None.
Definition idC : ContainerID := mkContainerID "C" None.
Definition idD : ContainerID := mkContainerID "D" None.
Definition idE : ContainerID := mkContainerID "E" None.

(** A container nested two levels down. *)
Definition idNested : ContainerID :=
  mkContainerID "c" (Some (mkContainerID "b" (Some (mkContainerID "a" None)))).

(** An identity printed by its own label. *)
Definition by_label (c : ContainerID) : string := value c.

(** Sample joins that keep one separator between their arguments: a
    separator ending the first or starting the second is dropped. *)
Definition drop_leading_slash (s : string) : string :=
  match s with
  | String "/"%char s' => s'
  | _ => s
  end.

Fixpoint drop_trailing_slash (s : string) : string :=
  match s with
  | EmptyString => EmptyString
  | String "/"%char EmptyString => EmptyString
  | String c s' => String c (drop_trailing_slash s')
  end.

Definition slash2 (a b : string) : string :=
  drop_trailing_slash a +:+ "/" +:+ drop_leading_slash b.
Definition slash3 (a b c : string) : string := slash2 a (slash2 b c).
Definition slash5 (a b c d e : string) : string :=
  slash2 a (slash2 b (slash2 c (slash2 d e))).

Abbreviation SampleCall :=
  (Call (IO := unit) (FlagsBase := unit) (Hook := unit)).
Abbreviation SampleLauncher :=
  (Launcher (IO := unit) (FlagsBase := unit) (Hook := unit)).

(** A launcher with nothing registered and no call made. *)
Definition fresh : SampleLauncher := {| pids := ∅; calls := [] |}.

(** A spawn that always gives pid 42 and a kill that always fails. *)
Definition spawn_42 (_ : list SampleCall)
    (_ : SubprocessCall (IO := unit) (FlagsBase := unit) (Hook := unit))
  : Try Subprocess.t :=
  Ok (Subprocess.mk 42).

Definition kill_fails (_ : list SampleCall) (_ : pid_t) (_ : Z) (_ _ : bool)
  : Try (list unit) :=
  Error "No such process".

(** [fork] and [destroy] with these collaborators, systemd enabled. *)
Definition sample_fork (containerId : ContainerID) (namespaces : option Z)
    (l : SampleLauncher) : Try pid_t * SampleLauncher :=
  fork by_label true tt spawn_42 containerId "/bin/sh" ["sh"] tt tt tt None
    None namespaces [] l.

Definition sample_destroy (containerId : ContainerID) (l : SampleLauncher)
  : Future Nothing * SampleLauncher :=
  destroy kill_fails containerId l.

(** The launcher after a first fork of [idA]. *)
Definition launched_A : SampleLauncher := snd (sample_fork idA None fresh).

(** Five persisted associations; the third repeats the handle of the first. *)
Definition five_states : list ContainerState.t :=
  [ ContainerState.mk idA 1; ContainerState.mk idB 2;
    ContainerState.mk idC 1; ContainerState.mk idD 4;
    ContainerState.mk idE 5 ].

(** ** Path derivation *)

(** The identity c under b under a: the code gives two segments with the
    ancestors' labels lost, where one segment per level would give three. *)
Example buildPath_nested :
  buildPathFromHierarchy slash2 slash3 idNested "containers"
  = "containers/containers/c"
  ∧ join_segments slash2 slash3 (segments "containers" idNested)
    = "containers/a/containers/b/containers/c"
  ∧ buildPathFromHierarchy slash2 slash3 idA "containers" = "containers/A".
Proof. repeat split; reflexivity. Qed.

Example checkpoint_path_nested :
  getExitStatusCheckpointPath slash2 slash3 slash5
    {| runtime_dir := "/var/run/mesos" |} idNested
  = "/var/run/mesos/launcher/posix/containers/containers/c/exit_status"
  ∧ getExitStatusCheckpointPath slash2 slash3 slash5
      {| runtime_dir := "/var/run/mesos" |} idA
    = "/var/run/mesos/launcher/posix/containers/A/exit_status".
Proof. split; reflexivity. Qed.

(** ** Recovery *)

Lemma five_states_duplicate : duplicate_handle five_states.
Proof.
  exists (ContainerState.mk idA 1), (ContainerState.mk idC 1).
  repeat split; simpl; try tauto. discriminate.
Qed.

(** The claim C1 at [five_states]: two identities share handle 1 and
    [recover] fails at the third association, naming it, but the two
    associations before it are still registered. *)
Lemma recover_all_or_nothing_counterexample :
  duplicate_handle five_states
  ∧ fst (recover by_label five_states fresh)
    = Failure "Detected duplicate pid 1 for container C"
  ∧ pids (snd (recover by_label five_states fresh))
    = {[ idA := 1%Z; idB := 2%Z ]}
  ∧ pids (snd (recover by_label five_states fresh)) ≠ ∅.
Proof.
  split; [exact five_states_duplicate |].
  split; [reflexivity |].
  assert (E : pids (snd (recover by_label five_states fresh))
              = {[ idA := 1%Z; idB := 2%Z ]}) by (vm_compute; reflexivity).
  split; [exact E |].
  rewrite E. intros Hempty.
  apply (f_equal (λ m : gmap ContainerID Z, m !! idA)) in Hempty.
  vm_compute in Hempty. discriminate Hempty.
Qed.

Lemma five_states_identities :
  NoDup (map ContainerState.container_id five_states).
Proof. apply (bool_decide_unpack _). vm_compute. exact I. Qed.

Lemma recover_duplicate_keeps_earlier_witness :
  pids fresh = ∅
  ∧ NoDup (map ContainerState.container_id five_states)
  ∧ duplicate_handle five_states
  ∧ ∃ before state after,
      five_states = before ++ state :: after
      ∧ before ≠ []
      ∧ NoDup (map ContainerState.pid before)
      ∧ In (ContainerState.pid state) (map ContainerState.pid before)
      ∧ recover by_label five_states fresh
        = (Failure (duplicate_pid_message by_label state),
           registered before fresh)
      ∧ (∀ s, In s before →
           pids (registered before fresh) !! ContainerState.container_id s
           = Some (ContainerState.pid s))
      ∧ (∀ s, In s (state :: after) →
           pids (registered before fresh) !! ContainerState.container_id s
           = None).
Proof.
  split; [reflexivity |].
  split; [exact five_states_identities |].
  split; [exact five_states_duplicate |].
  exact (recover_duplicate_keeps_earlier by_label five_states fresh
           eq_refl five_states_identities five_states_duplicate).
Defined.

(** The claim C9 at an association repeated with its own identity: when the
    second one is processed, handle 1 is registered for [idA] alone, and
    [recover] fails with the duplicate-pid failure all the same. *)
Lemma recover_same_identity_counterexample :
  recover by_label [ContainerState.mk idA 1] fresh
    = (ready ∅, register (ContainerState.mk idA 1) fresh)
  ∧ (∀ k, pids (register (ContainerState.mk idA 1) fresh) !! k = Some 1%Z →
          k = idA)
  ∧ fst (recover by_label
           [ContainerState.mk idA 1; ContainerState.mk idA 1] fresh)
    = Failure "Detected duplicate pid 1 for container A".
Proof.
  split; [reflexivity |]. split; [| reflexivity].
  intros k Hk. simpl in Hk.
  destruct (decide (idA = k)) as [<- | Hne]; [reflexivity |].
  rewrite lookup_insert_ne in Hk by assumption.
  rewrite lookup_empty in Hk. discriminate Hk.
Qed.

(** A handle whose entry has been overwritten is free again: the third
    association reuses handle 1 of the first and is inserted. *)
Example recover_overwritten_handle :
  recover by_label
    [ContainerState.mk idA 1; ContainerState.mk idA 2; ContainerState.mk idB 1]
    fresh
  = (ready ∅, {| pids := {[ idA := 2%Z; idB := 1%Z ]}; calls := [] |}).
Proof. vm_compute. reflexivity. Qed.

Lemma recover_fails_iff_handle_registered_witness :
  recover by_label [ContainerState.mk idA 1] fresh
    = (ready ∅, register (ContainerState.mk idA 1) fresh)
  ∧ (fst (recover by_label
            ([ContainerState.mk idA 1] ++ [ContainerState.mk idA 1]) fresh)
       = Failure (duplicate_pid_message by_label (ContainerState.mk idA 1))
     ↔ ∃ k, pids (register (ContainerState.mk idA 1) fresh) !! k = Some 1%Z).
Proof.
  split; [reflexivity |].
  exact (proj1 (proj2 (proj2
           (recover_fails_iff_handle_registered by_label
              [ContainerState.mk idA 1] [] (ContainerState.mk idA 1)
              fresh (register (ContainerState.mk idA 1) fresh) eq_refl)))).
Defined.

(** ** Fork, status and destroy *)

Example launched_A_registry :
  sample_fork idA None fresh = (Ok 42%Z, launched_A)
  ∧ pids launched_A = {[ idA := 42%Z ]}
  ∧ length (calls launched_A) = 1%nat.
Proof. vm_compute. repeat split; reflexivity. Qed.

Lemma fork_namespaces_unsupported_witness :
  1%Z ≠ 0%Z
  ∧ sample_fork idA (Some 1%Z) fresh = (Error unsupported_message, fresh).
Proof.
  split; [discriminate |].
  exact (proj1 (fork_namespaces_unsupported by_label true tt spawn_42 idA
                  "/bin/sh" ["sh"] tt tt tt None None 1 [] fresh
                  ltac:(discriminate))).
Defined.

(** The claim C5 at a fork of the registered [idA] that asks for
    namespaces: the error is the namespaces-unsupported one, not the
    already-forked one. *)
Lemma fork_registered_namespaces_counterexample :
  pids launched_A !! idA = Some 42%Z
  ∧ sample_fork idA (Some 1%Z) launched_A
    = (Error "Posix launcher does not support namespaces", launched_A)
  ∧ fst (sample_fork idA (Some 1%Z) launched_A)
    ≠ Error (already_forked_message by_label idA).
Proof.
  split; [reflexivity |]. split; [reflexivity |]. discriminate.
Qed.

Lemma fork_already_forked_witness :
  pids launched_A !! idA = Some 42%Z
  ∧ sample_fork idA (Some 0%Z) launched_A
    = (Error "Process has already been forked for container A", launched_A)
  ∧ sample_fork idA (Some 1%Z) launched_A
    = (Error "Posix launcher does not support namespaces", launched_A)
  ∧ pids (snd (sample_fork idA (Some 1%Z) launched_A)) !! idA = Some 42%Z.
Proof.
  split; [reflexivity |].
  pose proof (fork_already_forked by_label true tt spawn_42 idA
                "/bin/sh" ["sh"] tt tt tt None None (Some 0%Z) []
                launched_A 42 eq_refl) as (Herr & _).
  pose proof (fork_already_forked by_label true tt spawn_42 idA
                "/bin/sh" ["sh"] tt tt tt None None (Some 1%Z) []
                launched_A 42 eq_refl) as (_ & Hns & _ & _ & _ & Hentry).
  split; [exact (Herr eq_refl) |]. split; [exact (Hns eq_refl) | exact Hentry].
Defined.

Lemma fork_zero_namespaces_witness :
  pids fresh !! idA = None
  ∧ sample_fork idA (Some 0%Z) fresh = sample_fork idA None fresh
  ∧ length (calls (snd (sample_fork idA (Some 0%Z) fresh))) = 1%nat
  ∧ sample_fork idA (Some 0%Z) fresh = (Ok 42%Z, launched_A).
Proof.
  split; [reflexivity |].
  pose proof (fork_zero_namespaces by_label true tt spawn_42 idA
                "/bin/sh" ["sh"] tt tt tt None None [] fresh)
    as (Hsame & Hspawn & _).
  destruct (Hspawn eq_refl) as (Hcalls & Hresult).
  split; [exact Hsame |].
  split; [unfold sample_fork; now rewrite Hcalls | exact Hresult].
Defined.

Lemma fork_then_status_witness :
  sample_fork idA None fresh = (Ok 42%Z, launched_A)
  ∧ status idA launched_A
    = (ready {| executor_pid := Some 42%Z |}, launched_A).
Proof.
  split; [reflexivity |].
  exact (proj1 (fork_then_status by_label true tt spawn_42 idA
                  "/bin/sh" ["sh"] tt tt tt None None None []
                  fresh launched_A 42 eq_refl)).
Defined.

Lemma destroy_status_unknown_container_witness :
  pids fresh !! idA = None
  ∧ sample_destroy idA fresh = (Failure "Unknown container A", fresh)
  ∧ status idA fresh = (Failure "Container does not exist!", fresh).
Proof.
  split; [reflexivity |].
  pose proof (destroy_status_unknown_container (ProcessTree := unit)
                kill_fails idA fresh eq_refl) as (Hd & Hs & _).
  split; [exact Hd | exact Hs].
Defined.

(** A reaper whose wait on pid 42 failed. *)
Definition wait_failed : Reaper :=
  λ pid, if Z.eqb pid 42 then FAILED "No child processes" else PENDING.

Lemma destroy_future_outcomes_witness :
  pids launched_A !! idA = Some 42%Z
  ∧ wait_failed 42%Z = FAILED "No child processes"
  ∧ fst (sample_destroy idA launched_A) wait_failed
    = FAILED "No child processes"
  ∧ fst (sample_destroy idA launched_A) wait_failed
    ≠ FAILED "Failed to kill all processes: No child processes".
Proof.
  split; [reflexivity |]. split; [reflexivity |].
  pose proof (destroy_future_outcomes kill_fails idA launched_A 42 wait_failed
                eq_refl) as (_ & _ & Hfailed & _).
  split; [exact (Hfailed _ eq_refl) |].
  unfold sample_destroy. rewrite (Hfailed _ eq_refl). discriminate.
Defined.

(** A discarded wait leaves the destroy discarded. *)
Example destroy_discarded_wait :
  fst (sample_destroy idA launched_A) (λ _, DISCARDED) = DISCARDED.
Proof. reflexivity. Qed.

Lemma destroy_erases_entry_witness :
  pids launched_A !! idA = Some 42%Z
  ∧ requests_namespaces None = false
  ∧ pids (snd (sample_destroy idA launched_A)) = delete idA (pids launched_A)
  ∧ pids (snd (sample_destroy idA launched_A)) !! idA = None.
Proof.
  split; [reflexivity |]. split; [reflexivity |].
  pose proof (destroy_erases_entry by_label true tt spawn_42 kill_fails idA
                launched_A 42 "/bin/sh" ["sh"] tt tt tt None None None []
                eq_refl eq_refl) as (Hdel & Hgone & _).
  split; [exact Hdel | exact Hgone].
Defined.

(** The end-to-end run of the spec: recover nothing, fork [idA], ask its
    status, destroy it, destroy it again. *)
Example end_to_end :
  let l0 := snd (recover by_label [] fresh) in
  let l1 := snd (sample_fork idA None l0) in
  let l2 := snd (sample_destroy idA l1) in
  pids l0 = ∅
  ∧ fst (sample_fork idA None l0) = Ok 42%Z
  ∧ fst (status idA l1) = ready {| executor_pid := Some 42%Z |}
  ∧ pids l2 = ∅
  ∧ fst (sample_destroy idA l1) (λ _, PENDING) = PENDING
  ∧ fst (sample_destroy idA l1) (λ _, READY (Some 9%Z)) = READY mkNothing
  ∧ fst (sample_destroy idA l2) = Failure "Unknown container A".
Proof. vm_compute. repeat split; reflexivity. Qed.

(** ** Further runs *)

(** A spawn that always fails. *)
Definition spawn_fails (_ : list SampleCall)
    (_ : SubprocessCall (IO := unit) (FlagsBase := unit) (Hook := unit))
  : Try Subprocess.t :=
  Error "No such file or directory".

(** Three associations with distinct identities and distinct handles. *)
Definition three_states : list ContainerState.t :=
  [ ContainerState.mk idA 1; ContainerState.mk idB 2;
    ContainerState.mk idD 4 ].

Lemma three_states_identities :
  NoDup (map ContainerState.container_id three_states).
Proof. apply (bool_decide_unpack _). vm_compute. exact I. Qed.

Lemma three_states_handles : NoDup (map ContainerState.pid three_states).
Proof. apply (bool_decide_unpack _). vm_compute. exact I. Qed.

Lemma fresh_no_value (v : Z) : ¬ ∃ k, pids fresh !! k = Some v.
Proof. intros [k Hk]. simpl in Hk. now rewrite lookup_empty in Hk. Qed.

Lemma launched_A_handles_unique : handles_unique (pids launched_A).
Proof.
  intros k1 k2 v H1 H2.
  change (pids launched_A) with (<[idA := 42%Z]> (∅ : gmap ContainerID Z))
    in H1, H2.
  apply lookup_insert_Some in H1 as [[<- _] | [_ H1]];
    [| now rewrite lookup_empty in H1].
  apply lookup_insert_Some in H2 as [[<- _] | [_ H2]];
    [reflexivity | now rewrite lookup_empty in H2].
Qed.

Lemma recover_distinct_registers_witness :
  pids fresh = ∅
  ∧ NoDup (map ContainerState.container_id three_states)
  ∧ NoDup (map ContainerState.pid three_states)
  ∧ recover by_label three_states fresh
    = (ready ∅, registered three_states fresh)
  ∧ size (pids (snd (recover by_label three_states fresh))) = 3%nat.
Proof.
  split; [reflexivity |].
  split; [exact three_states_identities |].
  split; [exact three_states_handles |].
  pose proof (recover_distinct_registers by_label three_states fresh eq_refl
                three_states_identities three_states_handles)
    as (Hok & Hsize & _).
  split; [exact Hok | exact Hsize].
Defined.

Lemma recover_destroy_keep_handles_unique_witness :
  handles_unique (pids launched_A)
  ∧ handles_unique
      (pids (snd (recover by_label
                    [ContainerState.mk idB 2; ContainerState.mk idC 42]
                    launched_A)))
  ∧ handles_unique (pids (snd (sample_destroy idA launched_A))).
Proof.
  split; [exact launched_A_handles_unique |].
  exact (recover_destroy_keep_handles_unique by_label kill_fails
           [ContainerState.mk idB 2; ContainerState.mk idC 42] idA launched_A
           launched_A_handles_unique).
Defined.

Lemma fork_spawn_failure_witness :
  requests_namespaces None = false
  ∧ pids fresh !! idA = None
  ∧ fst (fork by_label true tt spawn_fails idA "/bin/sh" ["sh"] tt tt tt
           None None None [] fresh)
    = Error "Failed to fork a child process: No such file or directory"
  ∧ pids (snd (fork by_label true tt spawn_fails idA "/bin/sh" ["sh"] tt tt
                 tt None None None [] fresh)) = pids fresh.
Proof.
  split; [reflexivity |]. split; [reflexivity |].
  pose proof (fork_spawn_failure by_label true tt spawn_fails idA "/bin/sh"
                ["sh"] tt tt tt None None None [] fresh
                "No such file or directory" eq_refl eq_refl eq_refl)
    as (Hfork & Hpids & _).
  split; [now rewrite Hfork | exact Hpids].
Defined.

Lemma fork_may_alias_handle_witness :
  idA ≠ idB
  ∧ pids launched_A !! idA = Some 42%Z
  ∧ pids launched_A !! idB = None
  ∧ fst (sample_fork idB None launched_A) = Ok 42%Z
  ∧ pids (snd (sample_fork idB None launched_A)) !! idA = Some 42%Z
  ∧ pids (snd (sample_fork idB None launched_A)) !! idB = Some 42%Z.
Proof.
  assert (Hne : idA ≠ idB) by discriminate.
  split; [exact Hne |]. split; [reflexivity |]. split; [reflexivity |].
  pose proof (fork_may_alias_handle by_label true tt spawn_42 idB idA
                "/bin/sh" ["sh"] tt tt tt None None None [] launched_A
                (Subprocess.mk 42) Hne eq_refl eq_refl eq_refl eq_refl)
    as (Hok & HB & HA & _).
  split; [exact Hok |]. split; [exact HA | exact HB].
Defined.

Lemma destroy_frame_witness :
  pids launched_A !! idA = Some 42%Z
  ∧ length (calls (snd (sample_destroy idA launched_A))) = 3%nat
  ∧ calls (snd (sample_destroy idA launched_A))
    = calls launched_A ++ [CallKillTree 42 9 true true; CallReap 42].
Proof.
  split; [reflexivity |]. split; [reflexivity |].
  exact (proj2 (destroy_frame kill_fails idA launched_A 42 eq_refl)).
Defined.

Lemma fork_destroy_round_trip_witness :
  sample_fork idA None fresh = (Ok 42%Z, launched_A)
  ∧ pids (snd (sample_destroy idA launched_A)) = pids fresh
  ∧ fst (sample_destroy idA launched_A) = then_ (reap 42) bound_destroy.
Proof.
  split; [reflexivity |].
  pose proof (fork_destroy_round_trip by_label true tt spawn_42 kill_fails
                idA "/bin/sh" ["sh"] tt tt tt None None None [] fresh
                launched_A 42 eq_refl) as (Hpids & _ & Hfuture).
  split; [exact Hpids | exact Hfuture].
Defined.

Lemma recover_then_status_destroy_witness :
  NoDup (map ContainerState.container_id three_states)
  ∧ NoDup (map ContainerState.pid three_states)
  ∧ In (ContainerState.mk idB 2) three_states
  ∧ fst (status idB (snd (recover by_label three_states fresh)))
    = ready {| executor_pid := Some 2%Z |}
  ∧ calls (snd (sample_destroy idB (snd (recover by_label three_states fresh))))
    = [CallKillTree 2 9 true true; CallReap 2].
Proof.
  assert (Hin : In (ContainerState.mk idB 2) three_states)
    by (simpl; tauto).
  split; [exact three_states_identities |].
  split; [exact three_states_handles |].
  split; [exact Hin |].
  pose proof (recover_then_status_destroy by_label kill_fails three_states
                fresh (ContainerState.mk idB 2) three_states_identities
                three_states_handles
                (λ s' _, fresh_no_value (ContainerState.pid s')) Hin)
    as (Hstatus & _ & Hcalls).
  split; [exact Hstatus | exact Hcalls].
Defined.

Lemma recover_twice_fails_witness :
  NoDup (map ContainerState.container_id three_states)
  ∧ recover by_label three_states fresh
    = (ready ∅, registered three_states fresh)
  ∧ fst (recover by_label three_states (registered three_states fresh))
    = Failure "Detected duplicate pid 1 for container A".
Proof.
  split; [exact three_states_identities |]. split; [reflexivity |].
  exact (f_equal fst
           (recover_twice_fails by_label (ContainerState.mk idA 1)
              [ContainerState.mk idB 2; ContainerState.mk idD 4] fresh
              (registered three_states fresh) three_states_identities
              eq_refl)).
Defined.
